(** * A relay between HTTP clients and the Gemini API: model and properties

    The program is [index.js]: an Express application with four POST routes
    ([/generate-text], [/generate-from-image], [/generate-from-document],
    [/generate-from-audio]).  Each handler reads the prompt, checks its
    input, builds the content for the remote model, calls it, answers with
    JSON and, on the three media routes, removes the file that multer stored.

    The handlers are embedded as computations in a small monad that threads
    the disk, the response object and a chronological trace of the observable
    calls, and that has JavaScript's [throw], [try]/[catch] and [finally].
    A request reaches a handler with a parsed body or with none; writing to
    the console is not part of the model. *)

From Stdlib Require Import ZArith NArith Lia List.
From Stdlib Require Import Strings.String Strings.Ascii Strings.Byte.
From stdpp Require Import base option gmap strings list.

Local Open Scope string_scope.
Local Open Scope list_scope.

(** ** JavaScript values *)

(** The values a body field can hold once [express.json()] or multer has
    parsed the request: a missing field reads as [undefined].  Numbers are the
    integers.  Arrays and objects come from a JSON body, and from multer for
    field names with brackets ([prompt[]], [prompt[text]]). *)
#[local] Set Warnings "-register-all".
Inductive JSValue : Type :=
| JUndefined
| JNull
| JBool (b : bool)
| JNum (n : Z)
| JStr (s : string)
| JArr (items : list JSValue)
| JObj (fields : list (string * JSValue)).

(** [!v] is [negb (truthy v)]: [undefined], [null], [false], [0] and the empty
    string are the falsy values; every array and object is truthy. *)
Definition truthy (v : JSValue) : bool :=
  match v with
  | JUndefined | JNull => false
  | JBool b => b
  | JNum n => negb (n =? 0)%Z
  | JStr EmptyString => false
  | JStr (String _ _) => true
  | JArr _ | JObj _ => true
  end.

(** The default of a destructuring pattern, [const { prompt = d } = req.body]:
    it is taken for [undefined] only. *)
Definition default_to (d : string) (v : JSValue) : JSValue :=
  match v with
  | JUndefined => JStr d
  | _ => v
  end.

(** An object literal: its properties in the order they are written. *)
Definition JSObject : Type := list (string * JSValue).

(** What [JSON.stringify] keeps of an object, as [res.json] puts it on the
    wire: a property whose value is [undefined] is left out. *)
Definition JSON_stringify (o : JSObject) : JSObject :=
  List.filter (fun kv => match snd kv with JUndefined => false | _ => true end) o.

Definition has_key (k : string) (o : JSObject) : bool :=
  existsb (fun kv => String.eqb (fst kv) k) o.

(** ** Requests, content parts and the remote client *)

(** [req.file] as multer's [upload.single] leaves it. *)
Record File : Type := { path : string; mimetype : string }.

(** A request whose [req.body] is an object, by the two parts of it the
    handlers read: [req.body.prompt] and [req.file] ([None] when no file came
    under the route's field name).  A request that reaches a handler with no
    parsed body is the other case of [Incoming] below.  A request that multer
    itself refuses never reaches a handler and is neither. *)
Record Request : Type := { body_prompt : JSValue; file : option File }.

(** A part of a content, by the key the SDK gives it: [{text}],
    [{inlineData: {data, mimeType}}] and [{fileData: {fileUri, mimeType}}];
    and an object that the caller supplied and the SDK took for a part. *)
Inductive Part : Type :=
| PartText (text : string)
| PartInlineData (data : string) (mimeType : string)
| PartFileData (fileUri : string) (mimeType : string)
| PartGiven (fields : JSObject).

Record Content : Type := { role : string; parts : list Part }.

(** The [contents] field of a generation call: the text route hands over the
    prompt as it is, the media routes a list of contents. *)
Inductive Contents : Type :=
| RawContents (v : JSValue)
| ContentList (l : list Content).

(** A thrown [Error]. *)
Record Error : Type := { message : string }.

(** What [genAI.files.upload] resolves to. *)
Record UploadedFile : Type := { uri : string; uploaded_mimeType : string }.

(** What [genAI.models.generateContent] resolves to; [text] is the SDK's
    getter: a string, or nothing ([undefined]) when the response has no text. *)
Record GenerateContentResponse : Type := { text : option string }.

(** A [string | undefined] read as a value. *)
Definition of_option (o : option string) : JSValue :=
  match o with
  | Some s => JStr s
  | None => JUndefined
  end.

(** The remote service, as a stub: how it answers an upload (given the path,
    the bytes found there and the declared MIME type) and a generation call
    (given the model and the contents).  [inl e] is a rejected promise. *)
Record GoogleGenAI : Type := {
  upload_reply : string -> option (list byte) -> string -> Error + UploadedFile;
  generate_reply : string -> Contents -> Error + GenerateContentResponse
}.

(** ** The world a handler runs in *)

(** The calls a handler makes, in the order it makes them. *)
Inductive Event : Type :=
| EvUpload (file_path mime : string)
| EvGenerate (model : string) (contents : Contents)
| EvReadFile (file_path : string)
| EvExists (file_path : string) (found : bool)
| EvUnlink (file_path : string)
| EvSend (status : Z) (body : JSObject).

Record World : Type := {
  fs : gmap string (list byte);   (* the disk: path to contents *)
  statusCode : Z;                 (* res.statusCode *)
  trace : list Event
}.

Definition log (ev : Event) (w : World) : World :=
  {| fs := fs w; statusCode := statusCode w; trace := trace w ++ [ev] |}.

Inductive Completion (A : Type) : Type :=
| Normal (a : A)
| Throw (e : Error).
Arguments Normal {A} a.
Arguments Throw {A} e.

Definition M (A : Type) : Type := World -> Completion A * World.

#[export] Instance M_ret : MRet M := fun A a w => (Normal a, w).
#[export] Instance M_bind : MBind M := fun A B k m w =>
  match m w with
  | (Normal a, w') => k a w'
  | (Throw e, w') => (Throw e, w')
  end.

Definition throw {A} (e : Error) : M A := fun w => (Throw e, w).

(** [try { body } catch (e) { handler }]. *)
Definition try_catch {A} (body : M A) (handler : Error -> M A) : M A := fun w =>
  match body w with
  | (Normal a, w') => (Normal a, w')
  | (Throw e, w') => handler e w'
  end.

(** [try { body } finally { fin }]: [fin] runs on both completions, and a
    throw of [fin] replaces the completion of [body]. *)
Definition try_finally {A} (body : M A) (fin : M unit) : M A := fun w =>
  let (c, w') := body w in
  match fin w' with
  | (Normal _, w'') => (c, w'')
  | (Throw e, w'') => (Throw e, w'')
  end.

Definition try_catch_finally {A} (body : M A) (handler : Error -> M A)
    (fin : M unit) : M A :=
  try_finally (try_catch body handler) fin.

(** ** The file system, the response object and the SDK *)

Definition ENOENT (syscall p : string) : Error :=
  {| message := "ENOENT: no such file or directory, " +:+ syscall +:+ " '" +:+ p +:+ "'" |}.

(** [fs.readFileSync(p)]: the whole file, or a throw when there is none. *)
Definition readFileSync (p : string) : M (list byte) := fun w =>
  match fs w !! p with
  | Some bytes => (Normal bytes, log (EvReadFile p) w)
  | None => (Throw (ENOENT "open" p), log (EvReadFile p) w)
  end.

(** [fs.existsSync(p)]. *)
Definition existsSync (p : string) : M bool := fun w =>
  let found := bool_decide (is_Some (fs w !! p)) in
  (Normal found, log (EvExists p found) w).

(** [fs.unlinkSync(p)]: removes the file; throws when there is none. *)
Definition unlinkSync (p : string) : M unit := fun w =>
  match fs w !! p with
  | Some _ =>
      (Normal tt,
       {| fs := delete p (fs w); statusCode := statusCode w;
          trace := trace w ++ [EvUnlink p] |})
  | None => (Throw (ENOENT "unlink" p), log (EvUnlink p) w)
  end.

(** [res.status(code)]. *)
Definition res_status (code : Z) : M unit := fun w =>
  (Normal tt, {| fs := fs w; statusCode := code; trace := trace w |}).

(** [res.json(obj)]: sends [obj] under the status the response has now. *)
Definition res_json (obj : JSObject) : M unit := fun w =>
  (Normal tt, log (EvSend (statusCode w) obj) w).

(** [await genAI.files.upload({file, config: {mimeType}})]: the SDK reads the
    file at the path itself. *)
Definition files_upload (genAI : GoogleGenAI) (file_path mime : string)
    : M UploadedFile := fun w =>
  match upload_reply genAI file_path (fs w !! file_path) mime with
  | inr image => (Normal image, log (EvUpload file_path mime) w)
  | inl e => (Throw e, log (EvUpload file_path mime) w)
  end.

(** [await genAI.models.generateContent({model, contents})]. *)
Definition models_generateContent (genAI : GoogleGenAI) (model : string)
    (contents : Contents) : M GenerateContentResponse := fun w =>
  match generate_reply genAI model contents with
  | inr result => (Normal result, log (EvGenerate model contents) w)
  | inl e => (Throw e, log (EvGenerate model contents) w)
  end.

(** [createPartFromUri(uri, mimeType)]. *)
Definition createPartFromUri (file_uri mime : string) : Part :=
  PartFileData file_uri mime.

(** The keys by which the SDK takes an object for a part ([key in obj]). *)
Definition part_keys : list string :=
  ["fileData"; "text"; "functionCall"; "functionResponse"; "inlineData";
   "videoMetadata"; "codeExecutionResult"; "executableCode"].

Definition is_part_object (fields : JSObject) : bool :=
  existsb (fun key => has_key key fields) part_keys.

(** [createUserContent([prompt, part])]: a string becomes a text part, an
    object with one of the keys of a part stays as it is, and the SDK throws
    on any other element. *)
Definition createUserContent (prompt : JSValue) (part : Part) : M Content :=
  match prompt with
  | JStr s => mret {| role := "user"; parts := [PartText s; part] |}
  | JObj fields =>
      if is_part_object fields
      then mret {| role := "user"; parts := [PartGiven fields; part] |}
      else throw {| message := "element in PartUnion must be a Part object or string" |}
  | _ => throw {| message := "element in PartUnion must be a Part object or string" |}
  end.

(** ** Base64, as [buffer.toString('base64')] writes it *)

Definition base64_alphabet : string :=
  "ABCDEFGHIJKLMNOPQRSTUVWXYZabcdefghijklmnopqrstuvwxyz0123456789+/".

Definition pad : ascii := "="%char.

(** The character of a six-bit group. *)
Definition sextet_char (n : N) : ascii :=
  match String.get (N.to_nat n) base64_alphabet with
  | Some c => c
  | None => pad
  end.

(** Three bytes give four characters; one or two bytes left at the end give
    two or three characters and [=] padding up to four. *)
Fixpoint toString_base64 (buffer : list byte) : string :=
  match buffer with
  | [] => ""
  | [b1] =>
      let n1 := Byte.to_N b1 in
      String (sextet_char (N.shiftr n1 2))
        (String (sextet_char (N.shiftl (N.land n1 3) 4))
           (String pad (String pad "")))
  | [b1; b2] =>
      let n1 := Byte.to_N b1 in
      let n2 := Byte.to_N b2 in
      String (sextet_char (N.shiftr n1 2))
        (String (sextet_char (N.lor (N.shiftl (N.land n1 3) 4) (N.shiftr n2 4)))
           (String (sextet_char (N.shiftl (N.land n2 15) 2))
              (String pad "")))
  | b1 :: b2 :: b3 :: rest =>
      let n1 := Byte.to_N b1 in
      let n2 := Byte.to_N b2 in
      let n3 := Byte.to_N b3 in
      String (sextet_char (N.shiftr n1 2))
        (String (sextet_char (N.lor (N.shiftl (N.land n1 3) 4) (N.shiftr n2 4)))
           (String (sextet_char (N.lor (N.shiftl (N.land n2 15) 2) (N.shiftr n3 6)))
              (String (sextet_char (N.land n3 63))
                 (toString_base64 rest))))
  end.

(** ** The four handlers *)

(** Each handler is given here from the point where [req.body] has been
    destructured; the destructuring itself, which throws when there is no
    body, is [destructure_body] below, and [on_request] is the whole handler. *)

(** The [finally] block of the media routes. *)
Definition cleanup (req : Request) : M unit :=
  match file req with
  | Some f =>
      found ← existsSync (path f);
      if found : bool then unlinkSync (path f) else mret tt
  | None => mret tt
  end.

(** The [catch] block, the same on every route. *)
Definition on_error (e : Error) : M unit :=
  res_status 500;; res_json [("error", JStr (message e))].

(** [POST /generate-text]. *)
Definition generate_text (genAI : GoogleGenAI) (req : Request) : M unit :=
  let prompt := body_prompt req in
  if negb (truthy prompt) then
    res_status 400;; res_json [("error", JStr "Prompt diperlukan.")]
  else
    try_catch
      (result ← models_generateContent genAI "gemini-2.0-flash" (RawContents prompt);
       res_json [("output", of_option (text result))])
      on_error.

(** [POST /generate-from-image]. *)
Definition generate_from_image (genAI : GoogleGenAI) (req : Request) : M unit :=
  let prompt := default_to "Jelaskan gambar yang diunggah ini." (body_prompt req) in
  match file req with
  | None => res_status 400;; res_json [("error", JStr "File gambar diperlukan.")]
  | Some f =>
      try_catch_finally
        (image ← files_upload genAI (path f) (mimetype f);
         content ← createUserContent prompt
                     (createPartFromUri (uri image) (uploaded_mimeType image));
         result ← models_generateContent genAI "gemini-2.0-flash" (ContentList [content]);
         res_json [("output", of_option (text result))])
        on_error
        (cleanup req)
  end.

(** [POST /generate-from-document]. *)
Definition generate_from_document (genAI : GoogleGenAI) (req : Request) : M unit :=
  let prompt := default_to "Jelaskan dokumen yang diunggah ini." (body_prompt req) in
  match file req with
  | None => res_status 400;; res_json [("error", JStr "File dokumen diperlukan.")]
  | Some f =>
      try_catch_finally
        (buffer ← readFileSync (path f);
         let base64Data := toString_base64 buffer in
         let documentPart := PartInlineData base64Data (mimetype f) in
         content ← createUserContent prompt documentPart;
         result ← models_generateContent genAI "gemini-2.0-flash" (ContentList [content]);
         res_json [("output", of_option (text result))])
        on_error
        (cleanup req)
  end.

(** [POST /generate-from-audio]. *)
Definition generate_from_audio (genAI : GoogleGenAI) (req : Request) : M unit :=
  let prompt := default_to "Jelaskan audio yang diunggah ini." (body_prompt req) in
  match file req with
  | None => res_status 400;; res_json [("error", JStr "File audio diperlukan.")]
  | Some f =>
      try_catch_finally
        (audioBuffer ← readFileSync (path f);
         let base64Audio := toString_base64 audioBuffer in
         let audioPart := PartInlineData base64Audio (mimetype f) in
         content ← createUserContent prompt audioPart;
         result ← models_generateContent genAI "gemini-2.0-flash" (ContentList [content]);
         res_json [("output", of_option (text result))])
        on_error
        (cleanup req)
  end.

(** ** Routing and one request *)

Inductive Route : Type :=
| GenerateText
| GenerateFromImage
| GenerateFromDocument
| GenerateFromAudio.

Definition is_media (r : Route) : bool :=
  match r with GenerateText => false | _ => true end.

Definition handler (r : Route) : GoogleGenAI -> Request -> M unit :=
  match r with
  | GenerateText => generate_text
  | GenerateFromImage => generate_from_image
  | GenerateFromDocument => generate_from_document
  | GenerateFromAudio => generate_from_audio
  end.

(** A request starts with a fresh response object (status 200, nothing sent)
    on the disk it finds. *)
Definition fresh (disk : gmap string (list byte)) : World :=
  {| fs := disk; statusCode := 200; trace := [] |}.

Definition serve (r : Route) (genAI : GoogleGenAI) (req : Request)
    (disk : gmap string (list byte)) : Completion unit * World :=
  handler r genAI req (fresh disk).

(** What one request leaves behind. *)
Definition events r genAI req disk : list Event := trace (serve r genAI req disk).2.
Definition disk_after r genAI req disk : gmap string (list byte) :=
  fs (serve r genAI req disk).2.
Definition completion r genAI req disk : Completion unit := (serve r genAI req disk).1.

(** The responses written, in order: status and the object given to [res.json]. *)
Fixpoint responses (evs : list Event) : list (Z * JSObject) :=
  match evs with
  | [] => []
  | EvSend status body :: rest => (status, body) :: responses rest
  | _ :: rest => responses rest
  end.

(** The default a media route documents for a missing prompt
    ([index.js], the destructuring patterns of the three media handlers). *)
Definition default_prompt (r : Route) : string :=
  match r with
  | GenerateFromImage => "Jelaskan gambar yang diunggah ini."
  | GenerateFromDocument => "Jelaskan dokumen yang diunggah ini."
  | GenerateFromAudio => "Jelaskan audio yang diunggah ini."
  | GenerateText => ""
  end.

(** The message of a media route that got no file. *)
Definition missing_file_message (r : Route) : string :=
  match r with
  | GenerateFromImage => "File gambar diperlukan."
  | GenerateFromDocument => "File dokumen diperlukan."
  | GenerateFromAudio => "File audio diperlukan."
  | GenerateText => ""
  end.

(** The media of a request can be put into a part: the upload is accepted on
    the image route, the stored file can be read on the other two. *)
Definition media_available (r : Route) (genAI : GoogleGenAI) (f : File)
    (disk : gmap string (list byte)) : Prop :=
  match r with
  | GenerateFromImage =>
      exists image, upload_reply genAI (path f) (disk !! path f) (mimetype f) = inr image
  | _ => is_Some (disk !! path f)
  end.

(** ** A request without a parsed body *)

(** What a handler is called with.  [req.body] is [undefined] when no parser
    in front of the handler produced a body ([express.json()] and multer both
    pass such a request on, and multer then stored no file); otherwise it is
    an object. *)
Inductive Incoming : Type :=
| NoBody
| WithBody (req : Request).

(** The [TypeError] of destructuring [undefined]. *)
Definition body_undefined : Error :=
  {| message := "Cannot destructure property 'prompt' of 'req.body' as it is undefined." |}.

(** [const { prompt } = req.body] (with a default on the media routes): the
    first statement of every handler, before its input check and outside its
    [try]. *)
Definition destructure_body (inc : Incoming) : M Request :=
  match inc with
  | NoBody => throw body_undefined
  | WithBody req => mret req
  end.

(** A handler from its first statement on. *)
Definition on_request (r : Route) (genAI : GoogleGenAI) (inc : Incoming) : M unit :=
  req ← destructure_body inc;
  handler r genAI req.

Definition run (r : Route) (genAI : GoogleGenAI) (inc : Incoming)
    (disk : gmap string (list byte)) : Completion unit * World :=
  on_request r genAI inc (fresh disk).

Definition events_of r genAI inc disk : list Event := trace (run r genAI inc disk).2.

(** ** Reading base64 back *)

(** The value of a character of the alphabet. *)
Definition char_sextet (c : ascii) : option N :=
  let n := N_of_ascii c in
  if (65 <=? n)%N && (n <=? 90)%N then Some (n - 65)%N
  else if (97 <=? n)%N && (n <=? 122)%N then Some (n - 71)%N
  else if (48 <=? n)%N && (n <=? 57)%N then Some (n + 4)%N
  else if (n =? 43)%N then Some 62%N
  else if (n =? 47)%N then Some 63%N
  else None.

(** Four characters give back three bytes, or two or one before padding. *)
Definition decode_quad (c1 c2 c3 c4 : ascii) : option (list byte) :=
  s1 ← char_sextet c1;
  s2 ← char_sextet c2;
  b1 ← Byte.of_N (N.lor (N.shiftl s1 2) (N.shiftr s2 4));
  if Ascii.eqb c3 pad then
    if Ascii.eqb c4 pad then Some [b1] else None
  else
    s3 ← char_sextet c3;
    b2 ← Byte.of_N (N.lor (N.shiftl (N.land s2 15) 4) (N.shiftr s3 2));
    if Ascii.eqb c4 pad then Some [b1; b2]
    else
      s4 ← char_sextet c4;
      b3 ← Byte.of_N (N.lor (N.shiftl (N.land s3 3) 6) s4);
      Some [b1; b2; b3].

(** Modelled from the spec: the way "back" of the round trip of its testable
    properties.  The repository only encodes; this is the decoder of padded
    standard base64 that a reader of an inline-data part applies, and it
    refuses a string that is not one ([None]). *)
Fixpoint from_base64 (s : string) : option (list byte) :=
  match s with
  | "" => Some []
  | String c1 (String c2 (String c3 (String c4 rest))) =>
      bytes ← decode_quad c1 c2 c3 c4;
      if Ascii.eqb c4 pad then
        match rest with
        | "" => Some bytes
        | _ => None
        end
      else
        tail ← from_base64 rest;
        Some (bytes ++ tail)
  | _ => None
  end.

(** ** Weakest preconditions *)

(** [wp m w Q]: running [m] from [w] ends in a completion and a world that
    satisfy [Q]. *)
Definition wp {A} (m : M A) (w : World) (Q : Completion A -> World -> Prop) : Prop :=
  Q (m w).1 (m w).2.

(** ** Leaving the disk alone, and never throwing *)

(** [quiet m]: [m] changes no file and asks for no removal. *)
Definition quiet {A} (m : M A) : Prop :=
  forall w,
    fs (m w).2 = fs w
    /\ exists evs,
         trace (m w).2 = trace w ++ evs
         /\ Forall (fun ev => forall p, ev <> EvUnlink p) evs.

(** [contained m]: [m] completes normally from every world. *)
Definition contained {A} (m : M A) : Prop :=
  forall w, exists a, (m w).1 = Normal a.

(** The media part a media route builds for a stored file: on the image
    route the reference to what the upload returned, on the other two the
    base64 of the file under the MIME type multer recorded. *)
Definition built_media_part (r : Route) (genAI : GoogleGenAI) (f : File)
    (disk : gmap string (list byte)) (media : Part) : Prop :=
  match r with
  | GenerateFromImage =>
      exists image,
        upload_reply genAI (path f) (disk !! path f) (mimetype f) = inr image
        /\ media = PartFileData (uri image) (uploaded_mimeType image)
  | _ =>
      exists buffer,
        disk !! path f = Some buffer
        /\ media = PartInlineData (toString_base64 buffer) (mimetype f)
  end.

(** The first step of a media route for a stored file. *)
Definition first_step (r : Route) (f : File) : Event :=
  match r with
  | GenerateFromImage => EvUpload (path f) (mimetype f)
  | _ => EvReadFile (path f)
  end.

(** ** Kinds of events and of requests *)

Definition is_generate_call (ev : Event) : bool :=
  match ev with
  | EvGenerate _ _ => true
  | _ => false
  end.

Definition is_upload_call (ev : Event) : bool :=
  match ev with
  | EvUpload _ _ => true
  | _ => false
  end.

(** What a handler does before it answers: remote calls and reading the
    stored file. *)
Definition is_preparation (ev : Event) : bool :=
  match ev with
  | EvUpload _ _ | EvGenerate _ _ | EvReadFile _ => true
  | _ => false
  end.

(** The steps of the [finally] block. *)
Definition is_cleanup_step (ev : Event) : bool :=
  match ev with
  | EvExists _ _ | EvUnlink _ => true
  | _ => false
  end.

(** The check each handler makes before its [try]: [!prompt] on the text
    route, [!req.file] on the media routes. *)
Definition input_invalid (r : Route) (req : Request) : bool :=
  match r with
  | GenerateText => negb (truthy (body_prompt req))
  | _ => match file req with
         | Some _ => false
         | None => true
         end
  end.

(** A character that base64 text may hold: one of the alphabet, or padding. *)
Definition is_base64_char (c : ascii) : bool :=
  match char_sextet c with
  | Some _ => true
  | None => Ascii.eqb c pad
  end.

(** ** Sample clients, disks and requests *)

(** A service that accepts every upload and answers every prompt. *)
Definition talkative : GoogleGenAI :=
  {| upload_reply := fun _ _ mime => inr {| uri := "files/k3"; uploaded_mimeType := mime |};
     generate_reply := fun _ _ => inr {| text := Some "Halo!" |} |}.

(** A service whose answers carry no text (a blocked prompt, no candidate). *)
Definition textless : GoogleGenAI :=
  {| upload_reply := fun _ _ mime => inr {| uri := "files/k3"; uploaded_mimeType := mime |};
     generate_reply := fun _ _ => inr {| text := None |} |}.

(** A service whose generation call is rejected. *)
Definition out_of_quota : GoogleGenAI :=
  {| upload_reply := fun _ _ mime => inr {| uri := "files/k3"; uploaded_mimeType := mime |};
     generate_reply := fun _ _ => inl {| message := "429 quota exceeded" |} |}.

Definition scratch : File :=
  {| path := "uploads/5d41402a"; mimetype := "application/pdf" |}.

(** A disk that holds the scratch file (the two bytes of "Hi"). *)
Definition disk_with_scratch : gmap string (list byte) :=
  {[ "uploads/5d41402a" := [x48; x69]%byte ]}.

Definition just_text (s : string) : Request := {| body_prompt := JStr s; file := None |}.
Definition upload_only : Request := {| body_prompt := JUndefined; file := Some scratch |}.
Definition upload_with (s : string) : Request :=
  {| body_prompt := JStr s; file := Some scratch |}.

(** A service that refuses every upload. *)
Definition upload_refused : GoogleGenAI :=
  {| upload_reply := fun _ _ _ => inl {| message := "413 file too large" |};
     generate_reply := fun _ _ => inr {| text := Some "Halo!" |} |}.

(** A disk that holds the scratch file and the upload of another request. *)
Definition disk_with_neighbour : gmap string (list byte) :=
  <[ "uploads/7c9e6679" := [x4f; x4b]%byte ]> disk_with_scratch.

(** A request whose prompt field multer parsed into an object with the key
    of a part (a field named [prompt[inlineData][data]] and one named
    [prompt[inlineData][mimeType]]). *)
Definition part_like_prompt : Request :=
  {| body_prompt :=
       JObj [("inlineData", JObj [("data", JStr "AAAA"); ("mimeType", JStr "image/png")])];
     file := Some scratch |}.

(** * Rules of the calculus *)

Section Rules.
Context {A B : Type}.
Implicit Types (w : World) (Q : Completion A -> World -> Prop).

Lemma wp_ret (a : A) w Q : Q (Normal a) w -> wp (mret a) w Q.
Proof. exact id. Qed.

Lemma wp_throw (e : Error) w Q : Q (Throw e) w -> wp (throw e) w Q.
Proof. exact id. Qed.

Lemma wp_bind (m : M B) (k : B -> M A) w Q :
  wp m w (fun c w' =>
    match c with
    | Normal b => wp (k b) w' Q
    | Throw e => Q (Throw e) w'
    end) ->
  wp (m ≫= k) w Q.
Proof.
  unfold wp, mbind, M_bind. destruct (m w) as [[b|e] w']; exact id.
Qed.

Lemma wp_try_catch (body : M A) (handler : Error -> M A) w Q :
  wp body w (fun c w' =>
    match c with
    | Normal a => Q (Normal a) w'
    | Throw e => wp (handler e) w' Q
    end) ->
  wp (try_catch body handler) w Q.
Proof.
  unfold wp, try_catch. destruct (body w) as [[a|e] w']; exact id.
Qed.

Lemma wp_try_finally (body : M A) (fin : M unit) w Q :
  wp body w (fun c w' =>
    wp fin w' (fun c' w'' =>
      match c' with
      | Normal _ => Q c w''
      | Throw e => Q (Throw e) w''
      end)) ->
  wp (try_finally body fin) w Q.
Proof.
  unfold wp, try_finally. destruct (body w) as [c w']. cbn.
  destruct (fin w') as [[[]|e] w'']; exact id.
Qed.
End Rules.

Section Primitives.
Implicit Types (w : World).

Lemma wp_res_status code w (Q : Completion unit -> World -> Prop) :
  Q (Normal tt) {| fs := fs w; statusCode := code; trace := trace w |} ->
  wp (res_status code) w Q.
Proof. exact id. Qed.

Lemma wp_res_json obj w (Q : Completion unit -> World -> Prop) :
  Q (Normal tt) (log (EvSend (statusCode w) obj) w) -> wp (res_json obj) w Q.
Proof. exact id. Qed.

Lemma wp_readFileSync p w (Q : Completion (list byte) -> World -> Prop) :
  (forall bytes, fs w !! p = Some bytes -> Q (Normal bytes) (log (EvReadFile p) w)) ->
  (fs w !! p = None -> Q (Throw (ENOENT "open" p)) (log (EvReadFile p) w)) ->
  wp (readFileSync p) w Q.
Proof.
  intros Hsome Hnone. unfold wp, readFileSync.
  destruct (fs w !! p) as [bytes|] eqn:E;
    [apply (Hsome bytes eq_refl) | apply (Hnone eq_refl)].
Qed.

Lemma wp_existsSync p w (Q : Completion bool -> World -> Prop) :
  (forall bytes, fs w !! p = Some bytes -> Q (Normal true) (log (EvExists p true) w)) ->
  (fs w !! p = None -> Q (Normal false) (log (EvExists p false) w)) ->
  wp (existsSync p) w Q.
Proof.
  intros Hsome Hnone. unfold wp, existsSync.
  destruct (fs w !! p) as [bytes|] eqn:E;
    [apply (Hsome bytes eq_refl) | apply (Hnone eq_refl)].
Qed.

Lemma wp_unlinkSync p w (Q : Completion unit -> World -> Prop) :
  (forall bytes, fs w !! p = Some bytes ->
     Q (Normal tt) {| fs := delete p (fs w); statusCode := statusCode w;
                      trace := trace w ++ [EvUnlink p] |}) ->
  (fs w !! p = None -> Q (Throw (ENOENT "unlink" p)) (log (EvUnlink p) w)) ->
  wp (unlinkSync p) w Q.
Proof.
  intros Hsome Hnone. unfold wp, unlinkSync.
  destruct (fs w !! p) as [bytes|] eqn:E;
    [apply (Hsome bytes eq_refl) | apply (Hnone eq_refl)].
Qed.

Lemma wp_files_upload genAI p mime w (Q : Completion UploadedFile -> World -> Prop) :
  (forall image, upload_reply genAI p (fs w !! p) mime = inr image ->
     Q (Normal image) (log (EvUpload p mime) w)) ->
  (forall e, upload_reply genAI p (fs w !! p) mime = inl e ->
     Q (Throw e) (log (EvUpload p mime) w)) ->
  wp (files_upload genAI p mime) w Q.
Proof.
  intros Hok Hko. unfold wp, files_upload.
  destruct (upload_reply genAI p (fs w !! p) mime) as [e|image] eqn:E;
    [apply (Hko e eq_refl) | apply (Hok image eq_refl)].
Qed.

Lemma wp_models_generateContent genAI model contents w
    (Q : Completion GenerateContentResponse -> World -> Prop) :
  (forall result, generate_reply genAI model contents = inr result ->
     Q (Normal result) (log (EvGenerate model contents) w)) ->
  (forall e, generate_reply genAI model contents = inl e ->
     Q (Throw e) (log (EvGenerate model contents) w)) ->
  wp (models_generateContent genAI model contents) w Q.
Proof.
  intros Hok Hko. unfold wp, models_generateContent.
  destruct (generate_reply genAI model contents) as [e|result] eqn:E;
    [apply (Hko e eq_refl) | apply (Hok result eq_refl)].
Qed.
End Primitives.

(** Symbolic execution of a handler: one rule per step, the world kept in
    normal form. *)
Ltac wp_simpl :=
  cbn beta iota zeta delta
    [fs statusCode trace log fresh file body_prompt default_to app fst snd] in *.

Ltac wp_step :=
  lazymatch goal with
  | |- wp (mbind _ _) _ _ => apply wp_bind
  | |- wp (mret _) _ _ => apply wp_ret
  | |- wp (throw _) _ _ => apply wp_throw
  | |- wp (try_catch_finally _ _ _) _ _ => unfold try_catch_finally
  | |- wp (try_catch _ _) _ _ => apply wp_try_catch
  | |- wp (try_finally _ _) _ _ => apply wp_try_finally
  | |- wp (res_status _) _ _ => apply wp_res_status
  | |- wp (res_json _) _ _ => apply wp_res_json
  | |- wp (readFileSync _) _ _ => apply wp_readFileSync; [intros ? ? | intros ?]
  | |- wp (existsSync _) _ _ => apply wp_existsSync; [intros ? ? | intros ?]
  | |- wp (unlinkSync _) _ _ => apply wp_unlinkSync; [intros ? ? | intros ?]
  | |- wp (files_upload _ _ _) _ _ => apply wp_files_upload; intros ? ?
  | |- wp (models_generateContent _ _ _) _ _ =>
      apply wp_models_generateContent; intros ? ?
  | |- wp (createUserContent _ _) _ _ => unfold createUserContent, createPartFromUri
  | |- wp (cleanup _) _ _ => unfold cleanup
  | |- wp (on_error _) _ _ => unfold on_error
  | |- wp (if ?b then _ else _) _ _ => destruct b eqn:?
  | |- wp (match ?x with _ => _ end) _ _ => destruct x eqn:?
  end; wp_simpl.

(** Turns a goal about [events], [disk_after] and [completion] of a request
    into a [wp] of its handler. *)
Ltac wp_start :=
  unfold events, disk_after, completion, serve;
  lazymatch goal with
  | |- context [handler ?r ?g ?q ?w] =>
      pattern (handler r g q w).1, (handler r g q w).2;
      lazymatch goal with
      | |- ?Q _ _ => change (wp (handler r g q) w Q)
      end
  end;
  unfold handler, generate_text, generate_from_image, generate_from_document,
    generate_from_audio; wp_simpl.

Ltac wp_run := wp_start; repeat wp_step.

(** Contradictory or redundant facts about what the disk holds and what the
    service answered, and equations between events. *)
Ltac tidy :=
  repeat match goal with
  | H : _ \/ _ |- _ => destruct H
  | H : False |- _ => destruct H
  | H : _ /\ _ |- _ => destruct H
  | H : ?x = ?x |- _ => clear H
  | H : _ = _ |- _ => discriminate H
  | H : ?l = Some _, H' : ?l = None |- _ => rewrite H in H'; discriminate H'
  | H : ?l = inl _, H' : ?l = inr _ |- _ => rewrite H in H'; discriminate H'
  | H : ?l = Some _, H' : ?l = Some _ |- _ => rewrite H in H'
  | H : ?l = inl _, H' : ?l = inl _ |- _ => rewrite H in H'
  | H : ?l = inr _, H' : ?l = inr _ |- _ => rewrite H in H'
  | H : EvGenerate _ _ = EvGenerate _ _ |- _ => injection H as ? ?; subst
  | H : Some _ = Some _ |- _ => injection H as ?; subst
  | H : inl _ = inl _ |- _ => injection H as ?; subst
  | H : inr _ = inr _ |- _ => injection H as ?; subst
  | H : JStr _ = JStr _ |- _ => injection H as ?; subst
  end.

(** * Runs on sample inputs *)

(** A successful image request: upload, generation, response, cleanup. *)
Example image_request_run :
  serve GenerateFromImage talkative upload_only disk_with_scratch
  = (Normal tt,
     {| fs := ∅;
        statusCode := 200;
        trace :=
          [EvUpload "uploads/5d41402a" "application/pdf";
           EvGenerate "gemini-2.0-flash"
             (ContentList
                [{| role := "user";
                    parts := [PartText "Jelaskan gambar yang diunggah ini.";
                              PartFileData "files/k3" "application/pdf"] |}]);
           EvSend 200 [("output", JStr "Halo!")];
           EvExists "uploads/5d41402a" true;
           EvUnlink "uploads/5d41402a"] |}).
Proof. vm_compute. reflexivity. Qed.

(** A document request whose generation call is rejected. *)
Example document_request_rejected_run :
  events GenerateFromDocument out_of_quota (upload_with "Ringkas.") disk_with_scratch
  = [EvReadFile "uploads/5d41402a";
     EvGenerate "gemini-2.0-flash"
       (ContentList
          [{| role := "user";
              parts := [PartText "Ringkas.";
                        PartInlineData "SGk=" "application/pdf"] |}]);
     EvSend 500 [("error", JStr "429 quota exceeded")];
     EvExists "uploads/5d41402a" true;
     EvUnlink "uploads/5d41402a"].
Proof. vm_compute. reflexivity. Qed.

(** An audio request whose stored file is gone before the handler reads it:
    the read throws, the handler answers 500, and the cleanup finds nothing
    to remove. *)
Example audio_request_file_gone_run :
  serve GenerateFromAudio talkative upload_only ∅
  = (Normal tt,
     {| fs := ∅;
        statusCode := 500;
        trace :=
          [EvReadFile "uploads/5d41402a";
           EvSend 500
             [("error",
               JStr "ENOENT: no such file or directory, open 'uploads/5d41402a'")];
           EvExists "uploads/5d41402a" false] |}).
Proof. vm_compute. reflexivity. Qed.

(** A text request. *)
Example text_request_run :
  events GenerateText talkative (just_text "Halo") ∅
  = [EvGenerate "gemini-2.0-flash" (RawContents (JStr "Halo"));
     EvSend 200 [("output", JStr "Halo!")]].
Proof. vm_compute. reflexivity. Qed.

(** * The scratch file is removed on every path *)

Lemma quiet_silent {A} (m : M A) :
  (forall w, fs (m w).2 = fs w /\ trace (m w).2 = trace w) -> quiet m.
Proof.
  intros H w. destruct (H w) as [Hfs Htr]. split; [exact Hfs|].
  exists []. rewrite app_nil_r. split; [exact Htr | constructor].
Qed.

Lemma quiet_ret {A} (a : A) : quiet (mret a).
Proof. apply quiet_silent. intros w. split; reflexivity. Qed.

Lemma quiet_throw {A} (e : Error) : quiet (@throw A e).
Proof. apply quiet_silent. intros w. split; reflexivity. Qed.

Lemma quiet_bind {A B} (m : M A) (k : A -> M B) :
  quiet m -> (forall a, quiet (k a)) -> quiet (m ≫= k).
Proof.
  intros Hm Hk w. unfold mbind, M_bind.
  destruct (Hm w) as (Hfs & evs & Htr & Hevs).
  destruct (m w) as [[a|e] w1]; cbn in *.
  - destruct (Hk a w1) as (Hfs' & evs' & Htr' & Hevs').
    split; [congruence|]. exists (evs ++ evs'). split.
    + rewrite Htr', Htr, app_assoc. reflexivity.
    + apply Forall_app. split; assumption.
  - split; [exact Hfs|]. exists evs. split; assumption.
Qed.

Lemma quiet_try_catch {A} (body : M A) (handler : Error -> M A) :
  quiet body -> (forall e, quiet (handler e)) -> quiet (try_catch body handler).
Proof.
  intros Hm Hk w. unfold try_catch.
  destruct (Hm w) as (Hfs & evs & Htr & Hevs).
  destruct (body w) as [[a|e] w1]; cbn in *.
  - split; [exact Hfs|]. exists evs. split; assumption.
  - destruct (Hk e w1) as (Hfs' & evs' & Htr' & Hevs').
    split; [congruence|]. exists (evs ++ evs'). split.
    + rewrite Htr', Htr, app_assoc. reflexivity.
    + apply Forall_app. split; assumption.
Qed.

Lemma quiet_res_status code : quiet (res_status code).
Proof. apply quiet_silent. intros w. split; reflexivity. Qed.

Lemma quiet_res_json obj : quiet (res_json obj).
Proof.
  intros w. split; [reflexivity|]. eexists. split; [reflexivity|].
  repeat constructor. discriminate.
Qed.

Lemma quiet_readFileSync p : quiet (readFileSync p).
Proof.
  intros w. unfold readFileSync. destruct (fs w !! p);
    (split; [reflexivity|]; eexists; split; [reflexivity|]; repeat constructor; discriminate).
Qed.

Lemma quiet_files_upload genAI p mime : quiet (files_upload genAI p mime).
Proof.
  intros w. unfold files_upload. destruct (upload_reply _ _ _ _);
    (split; [reflexivity|]; eexists; split; [reflexivity|]; repeat constructor; discriminate).
Qed.

Lemma quiet_models_generateContent genAI model contents :
  quiet (models_generateContent genAI model contents).
Proof.
  intros w. unfold models_generateContent. destruct (generate_reply _ _ _);
    (split; [reflexivity|]; eexists; split; [reflexivity|]; repeat constructor; discriminate).
Qed.

Lemma quiet_createUserContent prompt part : quiet (createUserContent prompt part).
Proof.
  destruct prompt; cbn [createUserContent];
    try destruct (is_part_object _); first [apply quiet_ret | apply quiet_throw].
Qed.

Create HintDb quiet.
#[local] Hint Resolve quiet_ret quiet_throw quiet_bind quiet_try_catch quiet_res_status
  quiet_res_json quiet_readFileSync quiet_files_upload quiet_models_generateContent
  quiet_createUserContent : quiet.

Lemma quiet_on_error e : quiet (on_error e).
Proof. unfold on_error. auto with quiet. Qed.
#[local] Hint Resolve quiet_on_error : quiet.

Lemma contained_on_error e : contained (on_error e).
Proof. intros w. exists tt. reflexivity. Qed.

Lemma contained_try_catch {A} (body : M A) (handler : Error -> M A) :
  (forall e, contained (handler e)) -> contained (try_catch body handler).
Proof.
  intros Hk w. unfold try_catch. destruct (body w) as [[a|e] w1].
  - exists a. reflexivity.
  - apply Hk.
Qed.

(** The [finally] block on its own: it never throws, the file is gone after
    it, and it removes only what it found. *)
Lemma cleanup_run req f w :
  file req = Some f ->
  cleanup req w =
    (Normal tt,
     {| fs := delete (path f) (fs w); statusCode := statusCode w;
        trace := trace w ++ (if bool_decide (is_Some (fs w !! path f))
                             then [EvExists (path f) true; EvUnlink (path f)]
                             else [EvExists (path f) false]) |}).
Proof.
  intros Hfile. unfold cleanup. rewrite Hfile.
  unfold mbind, M_bind, existsSync, unlinkSync, log. cbn.
  destruct (fs w !! path f) as [bytes|] eqn:E; cbn.
  - rewrite E. rewrite <- app_assoc. reflexivity.
  - rewrite delete_id by exact E. reflexivity.
Qed.

Lemma guarded_by_cleanup (body : M unit) req f disk :
  file req = Some f -> quiet body -> contained body ->
  let run := try_finally body (cleanup req) (fresh disk) in
  run.1 = Normal tt
  /\ fs run.2 !! path f = None
  /\ exists before,
       Forall (fun ev => forall p, ev <> EvUnlink p) before
       /\ trace run.2
          = before ++ (if bool_decide (is_Some (disk !! path f))
                       then [EvExists (path f) true; EvUnlink (path f)]
                       else [EvExists (path f) false]).
Proof.
  intros Hfile Hquiet Hcontained. unfold try_finally.
  destruct (Hquiet (fresh disk)) as (Hfs & before & Htr & Hbefore).
  destruct (Hcontained (fresh disk)) as [[] Hc].
  destruct (body (fresh disk)) as [c w1]. cbn in Hfs, Htr, Hc. subst c.
  rewrite (cleanup_run req f w1 Hfile). cbn.
  split; [reflexivity|]. split; [apply lookup_delete_eq|].
  exists before. split; [exact Hbefore|].
  rewrite Htr, Hfs. reflexivity.
Qed.

(** C1: on a media route, when multer stored a file for the request, the
    handler completes without an uncaught exception, the file is not on the
    disk afterwards (whatever the service answered and whether or not the file
    could be read), and the removal is the last step and is guarded: the
    handler ends with the existence check, followed by the removal exactly
    when the file was found, and it asks for no other removal.  A file that is
    already missing is therefore not an error. *)
Theorem scratch_file_removed r genAI req f disk :
  is_media r = true -> file req = Some f ->
  completion r genAI req disk = Normal tt
  /\ disk_after r genAI req disk !! path f = None
  /\ exists before,
       Forall (fun ev => forall p, ev <> EvUnlink p) before
       /\ events r genAI req disk
          = before ++ (if bool_decide (is_Some (disk !! path f))
                       then [EvExists (path f) true; EvUnlink (path f)]
                       else [EvExists (path f) false]).
Proof.
  intros Hr Hfile.
  unfold completion, disk_after, events, serve.
  destruct r; try discriminate Hr; unfold handler;
    [unfold generate_from_image | unfold generate_from_document | unfold generate_from_audio];
    rewrite Hfile; cbv zeta; unfold try_catch_finally;
    apply guarded_by_cleanup;
    first [exact Hfile | apply contained_try_catch, contained_on_error | auto 12 with quiet].
Qed.

Lemma scratch_file_removed_witness :
  completion GenerateFromDocument out_of_quota upload_only disk_with_scratch = Normal tt
  /\ disk_after GenerateFromDocument out_of_quota upload_only disk_with_scratch
       !! path scratch = None
  /\ exists before,
       Forall (fun ev => forall p, ev <> EvUnlink p) before
       /\ events GenerateFromDocument out_of_quota upload_only disk_with_scratch
          = before ++ (if bool_decide (is_Some (disk_with_scratch !! path scratch))
                       then [EvExists (path scratch) true; EvUnlink (path scratch)]
                       else [EvExists (path scratch) false]).
Proof.
  apply (scratch_file_removed GenerateFromDocument out_of_quota upload_only scratch
           disk_with_scratch); reflexivity.
Defined.

(** * A request without a parsed body *)

Lemma run_with_body r genAI req disk :
  run r genAI (WithBody req) disk = serve r genAI req disk.
Proof. reflexivity. Qed.

Lemma events_of_with_body r genAI req disk :
  events_of r genAI (WithBody req) disk = events r genAI req disk.
Proof. reflexivity. Qed.

(** C3, the input the code fails on: a request to [/generate-text] that no
    parser gave a body.  Its prompt is absent, yet the handler does not answer
    400: the destructuring throws before the prompt check and outside the
    [try], so the handler completes with the [TypeError], sends nothing and
    calls nothing. *)
Theorem text_request_without_body_throws genAI disk :
  run GenerateText genAI NoBody disk = (Throw body_undefined, fresh disk)
  /\ responses (events_of GenerateText genAI NoBody disk) = [].
Proof. split; reflexivity. Qed.

(** C4, the input the code fails on: a request to a media route with no file
    and no parsed body.  On each of the three routes the destructuring throws
    before the file check and outside the [try], so the handler completes
    with the [TypeError], sends nothing and calls nothing. *)
Theorem media_request_without_body_throws genAI disk :
  run GenerateFromImage genAI NoBody disk = (Throw body_undefined, fresh disk)
  /\ run GenerateFromDocument genAI NoBody disk = (Throw body_undefined, fresh disk)
  /\ run GenerateFromAudio genAI NoBody disk = (Throw body_undefined, fresh disk)
  /\ forall r, responses (events_of r genAI NoBody disk) = [].
Proof. repeat split; destruct r; reflexivity. Qed.

(** * What the service answers and what the client gets *)

(** C2, the input that refutes it: the service answers a text prompt with a
    response that has no text; the call succeeds, and the handler answers 200
    with an [output] that is [undefined], not 500 with an [error]. *)
Lemma textless_reply_answered_200 :
  generate_reply textless "gemini-2.0-flash" (RawContents (JStr "Halo"))
    = inr {| text := None |}
  /\ responses (events GenerateText textless (just_text "Halo") ∅)
     = [(200%Z, [("output", JUndefined)])].
Proof. split; reflexivity. Qed.

(** C2, as the code has it: on every route, once the generation call is made
    its outcome alone decides the response.  A call that raises [e] is
    answered with status 500 and [{error: e.message}]; a call that succeeds
    is answered with status 200 and [{output: result.text}], also when the
    result has no text. *)
Theorem generation_outcome_decides_response r genAI req disk model contents :
  In (EvGenerate model contents) (events r genAI req disk) ->
  responses (events r genAI req disk) =
    match generate_reply genAI model contents with
    | inl e => [(500%Z, [("error", JStr (message e))])]
    | inr result => [(200%Z, [("output", of_option (text result))])]
    end.
Proof.
  destruct r; wp_run; cbn [In responses]; intros Hin; tidy;
    match goal with
    | H : generate_reply _ _ _ = _ |- _ => rewrite H; reflexivity
    end.
Qed.

Lemma generation_outcome_decides_response_witness :
  responses (events GenerateFromImage out_of_quota upload_only disk_with_scratch) =
    [(500%Z, [("error", JStr "429 quota exceeded")])].
Proof.
  apply (generation_outcome_decides_response GenerateFromImage out_of_quota upload_only
           disk_with_scratch "gemini-2.0-flash"
           (ContentList
              [{| role := "user";
                  parts := [PartText "Jelaskan gambar yang diunggah ini.";
                            PartFileData "files/k3" "application/pdf"] |}])).
  vm_compute. right. left. reflexivity.
Defined.

(** * Building the content *)

(** C5: the route selects how the media part is built.  The image route
    starts by uploading the stored file under its declared MIME type and never
    reads the file itself; the document and audio routes start by reading the
    stored file and never upload.  Every generation call carries, as its
    second part, the part built that way: [fileData] with the URI and MIME
    type the upload returned, or [inlineData] with the base64 of the whole
    file and the declared MIME type.  And the call is made: with a string
    prompt, once that part is built the generation call with it follows the
    first step at once. *)
Theorem content_strategy_by_route r genAI req f disk :
  is_media r = true -> file req = Some f ->
  (exists rest, events r genAI req disk = first_step r f :: rest)
  /\ Forall (fun ev =>
       match r with
       | GenerateFromImage => forall p, ev <> EvReadFile p
       | _ => forall p mime, ev <> EvUpload p mime
       end) (events r genAI req disk)
  /\ (forall model contents,
        In (EvGenerate model contents) (events r genAI req disk) ->
        exists first media,
          contents = ContentList [{| role := "user"; parts := [first; media] |}]
          /\ built_media_part r genAI f disk media)
  /\ (forall s media,
        default_to (default_prompt r) (body_prompt req) = JStr s ->
        built_media_part r genAI f disk media ->
        exists rest,
          events r genAI req disk
          = first_step r f
            :: EvGenerate "gemini-2.0-flash"
                 (ContentList [{| role := "user"; parts := [PartText s; media] |}])
            :: rest).
Proof.
  intros Hr Hfile. destruct req as [prompt fl]. cbn in Hfile. subst fl.
  split; [|split; [|split]].
  - destruct r; try discriminate Hr; wp_run; eexists; reflexivity.
  - destruct r; try discriminate Hr; wp_run; repeat constructor; discriminate.
  - intros model contents.
    destruct r; try discriminate Hr; wp_run; cbn [In built_media_part];
      intros Hin; tidy; eauto 8.
  - intros s media Hs Hbuilt. cbn [body_prompt] in Hs.
    destruct r; try discriminate Hr; cbn [built_media_part default_prompt] in Hbuilt, Hs;
      destruct Hbuilt as (built & Hbuilt & ->);
      (destruct prompt; cbn [default_to] in Hs; try discriminate Hs; injection Hs as <-);
      wp_run; tidy; eexists; reflexivity.
Qed.

Lemma content_strategy_by_route_witness :
  (exists rest,
     events GenerateFromImage talkative upload_only disk_with_scratch
     = EvUpload "uploads/5d41402a" "application/pdf"
       :: EvGenerate "gemini-2.0-flash"
            (ContentList
               [{| role := "user";
                   parts := [PartText "Jelaskan gambar yang diunggah ini.";
                             PartFileData "files/k3" "application/pdf"] |}])
       :: rest)
  /\ (exists rest,
        events GenerateFromDocument talkative (upload_with "Ringkas dokumen ini.")
          disk_with_scratch
        = EvReadFile "uploads/5d41402a"
          :: EvGenerate "gemini-2.0-flash"
               (ContentList
                  [{| role := "user";
                      parts := [PartText "Ringkas dokumen ini.";
                                PartInlineData "SGk=" "application/pdf"] |}])
          :: rest).
Proof.
  split.
  - apply (proj2 (proj2 (proj2
      (content_strategy_by_route GenerateFromImage talkative upload_only scratch
         disk_with_scratch eq_refl eq_refl)))
      "Jelaskan gambar yang diunggah ini."
      (PartFileData "files/k3" "application/pdf")).
    + reflexivity.
    + exists {| uri := "files/k3"; uploaded_mimeType := "application/pdf" |}.
      split; reflexivity.
  - apply (proj2 (proj2 (proj2
      (content_strategy_by_route GenerateFromDocument talkative
         (upload_with "Ringkas dokumen ini.") scratch disk_with_scratch eq_refl eq_refl)))
      "Ringkas dokumen ini."
      (PartInlineData "SGk=" "application/pdf")).
    + reflexivity.
    + exists [x48; x69]%byte. split; reflexivity.
Defined.

(** C6, the input that refutes it: multer parsed the prompt field into an
    object with the key [inlineData]; the SDK takes it for a part, and the
    generation call is made with that object as the first element, not with
    a text part. *)
Lemma part_like_prompt_is_first_part :
  events GenerateFromDocument talkative part_like_prompt disk_with_scratch
  = [EvReadFile "uploads/5d41402a";
     EvGenerate "gemini-2.0-flash"
       (ContentList
          [{| role := "user";
              parts :=
                [PartGiven
                   [("inlineData",
                     JObj [("data", JStr "AAAA"); ("mimeType", JStr "image/png")])];
                 PartInlineData "SGk=" "application/pdf"] |}]);
     EvSend 200 [("output", JStr "Halo!")];
     EvExists "uploads/5d41402a" true;
     EvUnlink "uploads/5d41402a"].
Proof. vm_compute. reflexivity. Qed.

(** C6, as the code has it: on a media route with a stored file, the contents
    of every generation call are one user content of exactly two parts, for
    the fixed model.  The second is the media part built from the stored
    file.  The first is the text part of the prompt when the prompt is a
    string (the body's, or the route's default when the body has none), and
    the prompt itself when it is an object that the SDK takes for a part; no
    other prompt reaches the call.  With a string prompt, the call with the
    text part first and the media part second is made as soon as the media
    part is built. *)
Theorem prompt_first_then_media r genAI req f disk :
  is_media r = true -> file req = Some f ->
  (forall model contents,
     In (EvGenerate model contents) (events r genAI req disk) ->
     model = "gemini-2.0-flash"
     /\ exists first media,
          contents = ContentList [{| role := "user"; parts := [first; media] |}]
          /\ built_media_part r genAI f disk media
          /\ match default_to (default_prompt r) (body_prompt req) with
             | JStr s => first = PartText s
             | JObj fields => first = PartGiven fields /\ is_part_object fields = true
             | _ => False
             end)
  /\ (forall s media,
        default_to (default_prompt r) (body_prompt req) = JStr s ->
        built_media_part r genAI f disk media ->
        In (EvGenerate "gemini-2.0-flash"
              (ContentList [{| role := "user"; parts := [PartText s; media] |}]))
           (events r genAI req disk)).
Proof.
  intros Hr Hfile. destruct req as [prompt fl]. cbn in Hfile. subst fl. split.
  - intros model contents.
    destruct r; try discriminate Hr; wp_run;
      cbn [In built_media_part default_prompt body_prompt];
      intros Hin; tidy; (split; [reflexivity|]); do 2 eexists;
      (split; [reflexivity|]); (split; [eauto|]);
      match goal with
      | H : default_to _ _ = _ |- _ => rewrite H
      end; auto.
  - intros s media Hs Hbuilt. cbn [body_prompt] in Hs.
    destruct r; try discriminate Hr; cbn [built_media_part default_prompt] in Hbuilt, Hs;
      destruct Hbuilt as (built & Hbuilt & ->);
      (destruct prompt; cbn [default_to] in Hs; try discriminate Hs; injection Hs as <-);
      wp_run; tidy; cbn [In]; auto.
Qed.

Lemma prompt_first_then_media_witness :
  In (EvGenerate "gemini-2.0-flash"
        (ContentList
           [{| role := "user";
               parts := [PartText "Jelaskan audio yang diunggah ini.";
                         PartInlineData "SGk=" "application/pdf"] |}]))
     (events GenerateFromAudio talkative upload_only disk_with_scratch)
  /\ "gemini-2.0-flash" = "gemini-2.0-flash"
  /\ exists first media,
       ContentList
         [{| role := "user";
             parts := [PartText "Ringkas dokumen ini.";
                       PartInlineData "SGk=" "application/pdf"] |}]
       = ContentList [{| role := "user"; parts := [first; media] |}]
       /\ built_media_part GenerateFromDocument talkative scratch disk_with_scratch media
       /\ first = PartText "Ringkas dokumen ini.".
Proof.
  split.
  - apply (proj2
      (prompt_first_then_media GenerateFromAudio talkative upload_only scratch
         disk_with_scratch eq_refl eq_refl)
      "Jelaskan audio yang diunggah ini."
      (PartInlineData "SGk=" "application/pdf")).
    + reflexivity.
    + exists [x48; x69]%byte. split; reflexivity.
  - apply (proj1
      (prompt_first_then_media GenerateFromDocument talkative
         (upload_with "Ringkas dokumen ini.") scratch disk_with_scratch eq_refl eq_refl)
      "gemini-2.0-flash"
      (ContentList
         [{| role := "user";
             parts := [PartText "Ringkas dokumen ini.";
                       PartInlineData "SGk=" "application/pdf"] |}])).
    vm_compute. right. left. reflexivity.
Defined.

(** On a media route, a string prompt and media that can be put into a part
    lead to the generation call. *)
Lemma generation_reached r genAI prompt f disk :
  is_media r = true -> media_available r genAI f disk ->
  exists media,
    In (EvGenerate "gemini-2.0-flash"
          (ContentList [{| role := "user"; parts := [PartText prompt; media] |}]))
       (events r genAI {| body_prompt := JStr prompt; file := Some f |} disk).
Proof.
  intros Hr Havail.
  destruct r; try discriminate Hr; cbn [media_available] in Havail;
    [destruct Havail as [image Himage] | destruct Havail as [buffer Hbuffer] ..];
    wp_run; tidy; cbn [In]; eauto 8.
Qed.

(** A media route that got a file never answers 400. *)
Lemma media_route_not_rejected r genAI prompt f disk :
  is_media r = true ->
  Forall (fun response => response.1 <> 400%Z)
    (responses (events r genAI {| body_prompt := prompt; file := Some f |} disk)).
Proof.
  intros Hr. destruct r; try discriminate Hr; wp_run; cbn [responses];
    repeat constructor; cbn; lia.
Qed.

(** C7: on a media route, a request with a file and no prompt field runs
    exactly as the same request with the route's documented default spelled
    out as its prompt.  It is not rejected, every generation call it makes has
    the default as its text part, and it makes that call whenever the media
    can be put into a part. *)
Theorem default_prompt_applied r genAI f disk :
  is_media r = true ->
  let absent := {| body_prompt := JUndefined; file := Some f |} in
  let spelled := {| body_prompt := JStr (default_prompt r); file := Some f |} in
  serve r genAI absent disk = serve r genAI spelled disk
  /\ Forall (fun response => response.1 <> 400%Z) (responses (events r genAI absent disk))
  /\ (forall model contents,
        In (EvGenerate model contents) (events r genAI absent disk) ->
        exists media,
          contents = ContentList
            [{| role := "user"; parts := [PartText (default_prompt r); media] |}])
  /\ (media_available r genAI f disk ->
      exists contents,
        In (EvGenerate "gemini-2.0-flash" contents) (events r genAI absent disk)).
Proof.
  intros Hr absent spelled.
  assert (Hsame : serve r genAI absent disk = serve r genAI spelled disk)
    by (destruct r; try discriminate Hr; reflexivity).
  split; [exact Hsame|].
  split; [apply media_route_not_rejected; exact Hr|].
  unfold events. rewrite Hsame. fold (events r genAI spelled disk). split.
  - intros model contents. subst spelled.
    destruct r; try discriminate Hr; wp_run; cbn [In default_prompt];
      intros Hin; tidy; eauto.
  - intros Havail.
    destruct (generation_reached r genAI (default_prompt r) f disk Hr Havail) as [media Hin].
    eauto.
Qed.

Lemma default_prompt_applied_witness :
  serve GenerateFromImage talkative upload_only disk_with_scratch
  = serve GenerateFromImage talkative
      (upload_with "Jelaskan gambar yang diunggah ini.") disk_with_scratch
  /\ Forall (fun response => response.1 <> 400%Z)
       (responses (events GenerateFromImage talkative upload_only disk_with_scratch))
  /\ (forall model contents,
        In (EvGenerate model contents)
           (events GenerateFromImage talkative upload_only disk_with_scratch) ->
        exists media,
          contents = ContentList
            [{| role := "user";
                parts := [PartText "Jelaskan gambar yang diunggah ini."; media] |}])
  /\ (media_available GenerateFromImage talkative scratch disk_with_scratch ->
      exists contents,
        In (EvGenerate "gemini-2.0-flash" contents)
           (events GenerateFromImage talkative upload_only disk_with_scratch)).
Proof.
  apply (default_prompt_applied GenerateFromImage talkative scratch disk_with_scratch).
  reflexivity.
Defined.

(** C9: on a media route, a prompt that is present and empty is kept.  The
    request is not rejected, every generation call it makes has the empty
    string as its text part (not the route's default), the call is made
    whenever the media can be put into a part, and on the image route the
    upload is made first in any case.  The text route answers the same prompt
    with 400. *)
Theorem empty_prompt_kept r genAI f disk :
  is_media r = true ->
  let req := {| body_prompt := JStr ""; file := Some f |} in
  Forall (fun response => response.1 <> 400%Z) (responses (events r genAI req disk))
  /\ (forall model contents,
        In (EvGenerate model contents) (events r genAI req disk) ->
        exists media,
          contents = ContentList [{| role := "user"; parts := [PartText ""; media] |}])
  /\ (media_available r genAI f disk ->
      exists contents, In (EvGenerate "gemini-2.0-flash" contents) (events r genAI req disk))
  /\ (r = GenerateFromImage ->
      exists rest, events r genAI req disk = EvUpload (path f) (mimetype f) :: rest)
  /\ responses (events GenerateText genAI req disk)
     = [(400%Z, [("error", JStr "Prompt diperlukan.")])].
Proof.
  intros Hr req.
  split; [apply media_route_not_rejected; exact Hr|].
  split; [|split; [|split]].
  - intros model contents. subst req.
    destruct r; try discriminate Hr; wp_run; cbn [In]; intros Hin; tidy; eauto.
  - intros Havail.
    destruct (generation_reached r genAI "" f disk Hr Havail) as [media Hin]. eauto.
  - intros ->. subst req. wp_run; eexists; reflexivity.
  - reflexivity.
Qed.

Lemma empty_prompt_kept_witness :
  Forall (fun response => response.1 <> 400%Z)
    (responses (events GenerateFromAudio talkative (upload_with "") disk_with_scratch))
  /\ (forall model contents,
        In (EvGenerate model contents)
           (events GenerateFromAudio talkative (upload_with "") disk_with_scratch) ->
        exists media,
          contents = ContentList [{| role := "user"; parts := [PartText ""; media] |}])
  /\ (media_available GenerateFromAudio talkative scratch disk_with_scratch ->
      exists contents,
        In (EvGenerate "gemini-2.0-flash" contents)
           (events GenerateFromAudio talkative (upload_with "") disk_with_scratch))
  /\ (GenerateFromAudio = GenerateFromImage ->
      exists rest,
        events GenerateFromAudio talkative (upload_with "") disk_with_scratch
        = EvUpload (path scratch) (mimetype scratch) :: rest)
  /\ responses (events GenerateText talkative (upload_with "") disk_with_scratch)
     = [(400%Z, [("error", JStr "Prompt diperlukan.")])].
Proof.
  apply (empty_prompt_kept GenerateFromAudio talkative scratch disk_with_scratch).
  reflexivity.
Defined.

(** * One response per request *)

(** C10, the input that refutes it: the service answers a document request
    with a response that has no text; the handler answers 200, and the body
    it sends is the empty JSON object, without the key [output]. *)
Lemma textless_200_body_lacks_output :
  responses (events GenerateFromDocument textless upload_only disk_with_scratch)
    = [(200%Z, [("output", JUndefined)])]
  /\ JSON_stringify [("output", JUndefined)] = []
  /\ has_key "output" (JSON_stringify [("output", JUndefined)]) = false.
Proof. repeat split; reflexivity. Qed.

(** C10, as the code has it: every request that reaches one of the four
    handlers with a parsed body gets exactly one response.  Either its status
    is 200 and its body is [{output: result.text}] for the result of the
    generation call, which on the wire has the key [output] exactly when the
    result has text; or its status is 400 or 500 and its body has the key
    [error]. *)
Theorem one_response_per_request r genAI req disk :
  exists status body,
    responses (events_of r genAI (WithBody req) disk) = [(status, body)]
    /\ ((status = 200%Z
         /\ exists model contents result,
              generate_reply genAI model contents = inr result
              /\ body = [("output", of_option (text result))]
              /\ has_key "output" (JSON_stringify body)
                 = match text result with Some _ => true | None => false end)
        \/ ((status = 400%Z \/ status = 500%Z)
            /\ has_key "error" (JSON_stringify body) = true)).
Proof.
  rewrite events_of_with_body.
  destruct r; wp_run; cbn [responses]; do 2 eexists; (split; [reflexivity|]);
    first
      [ right; split; [auto | reflexivity]
      | left; split; [reflexivity|]; do 3 eexists;
        split; [eassumption|]; split; [reflexivity|];
        match goal with |- context [text ?x] => destruct (text x) end; reflexivity ].
Qed.

(** * Base64 round trip *)

Section Base64.
Local Open Scope N_scope.

(** The alphabet and its reading are inverse on the six-bit values, and no
    character of the alphabet is the padding character. *)
Lemma char_sextet_char n : n < 64 -> char_sextet (sextet_char n) = Some n.
Proof.
  intros H. destruct n as [|p]; [reflexivity|].
  do 6 (destruct p as [p|p|]; try reflexivity); lia.
Qed.

Lemma sextet_char_not_pad n : n < 64 -> Ascii.eqb (sextet_char n) pad = false.
Proof.
  intros H. destruct n as [|p]; [reflexivity|].
  do 6 (destruct p as [p|p|]; try reflexivity); lia.
Qed.

(** Bits that do not overlap: [or] is addition. *)
Lemma lor_shiftl_low a b k : b < 2 ^ k -> N.lor (N.shiftl a k) b = a * 2 ^ k + b.
Proof.
  intros Hb. rewrite N.shiftl_mul_pow2.
  assert (Hland : N.land (a * 2 ^ k) b = 0).
  { apply N.bits_inj. intros i. rewrite N.land_spec, N.bits_0.
    destruct (N.ltb_spec i k) as [Hlt|Hge].
    - rewrite N.mul_pow2_bits_low by exact Hlt. reflexivity.
    - rewrite <- (N.mod_small b (2 ^ k)) by exact Hb.
      rewrite N.mod_pow2_bits_high by exact Hge. apply andb_false_r. }
  rewrite <- N.lxor_lor by exact Hland. symmetry.
  apply N.add_nocarry_lxor. exact Hland.
Qed.

Lemma land_3 n : N.land n 3 = n mod 4.
Proof. exact (N.land_ones n 2). Qed.

Lemma land_15 n : N.land n 15 = n mod 16.
Proof. exact (N.land_ones n 4). Qed.

Lemma land_63 n : N.land n 63 = n mod 64.
Proof. exact (N.land_ones n 6). Qed.

Lemma byte_lt_256 (b : byte) : Byte.to_N b < 256.
Proof. pose proof (Byte.to_N_bounded b). lia. Qed.

(** Masks and shifts as remainders, quotients and products; then linear
    arithmetic over the Euclidean divisions. *)
Ltac arith_norm :=
  rewrite ?land_3, ?land_15, ?land_63, ?N.shiftr_div_pow2, ?N.shiftl_mul_pow2;
  change (2 ^ 2) with 4; change (2 ^ 4) with 16; change (2 ^ 6) with 64.

Ltac euclid := zify; Z.to_euclidean_division_equations; lia.

Ltac bits_to_arith :=
  repeat match goal with
  | |- context [N.lor (N.shiftl ?a ?k) ?b] =>
      rewrite (lor_shiftl_low a b k) by (arith_norm; euclid)
  end;
  arith_norm.

(** A full group: four characters give the three bytes back. *)
Lemma decode_quad_three (b1 b2 b3 : byte) :
  let n1 := Byte.to_N b1 in
  let n2 := Byte.to_N b2 in
  let n3 := Byte.to_N b3 in
  decode_quad
    (sextet_char (N.shiftr n1 2))
    (sextet_char (N.lor (N.shiftl (N.land n1 3) 4) (N.shiftr n2 4)))
    (sextet_char (N.lor (N.shiftl (N.land n2 15) 2) (N.shiftr n3 6)))
    (sextet_char (N.land n3 63))
  = Some [b1; b2; b3].
Proof.
  intros n1 n2 n3.
  pose proof (byte_lt_256 b1) as H1. pose proof (byte_lt_256 b2) as H2.
  pose proof (byte_lt_256 b3) as H3.
  pose proof (Byte.of_to_N b1) as E1. pose proof (Byte.of_to_N b2) as E2.
  pose proof (Byte.of_to_N b3) as E3.
  fold n1 in H1, E1. fold n2 in H2, E2. fold n3 in H3, E3. clearbody n1 n2 n3.
  unfold decode_quad.
  rewrite !char_sextet_char, !sextet_char_not_pad by (bits_to_arith; euclid).
  cbn [mbind option_bind].
  replace (N.lor (N.shiftl (N.shiftr n1 2) 2) _) with n1 by (bits_to_arith; euclid).
  rewrite E1. cbn [mbind option_bind].
  replace (N.lor (N.shiftl (N.land _ 15) 4) _) with n2 by (bits_to_arith; euclid).
  rewrite E2. cbn [mbind option_bind].
  replace (N.lor (N.shiftl (N.land _ 3) 6) _) with n3 by (bits_to_arith; euclid).
  rewrite E3. reflexivity.
Qed.

(** Two bytes at the end: three characters and one padding. *)
Lemma decode_quad_two (b1 b2 : byte) :
  let n1 := Byte.to_N b1 in
  let n2 := Byte.to_N b2 in
  decode_quad
    (sextet_char (N.shiftr n1 2))
    (sextet_char (N.lor (N.shiftl (N.land n1 3) 4) (N.shiftr n2 4)))
    (sextet_char (N.shiftl (N.land n2 15) 2))
    pad
  = Some [b1; b2].
Proof.
  intros n1 n2.
  pose proof (byte_lt_256 b1) as H1. pose proof (byte_lt_256 b2) as H2.
  pose proof (Byte.of_to_N b1) as E1. pose proof (Byte.of_to_N b2) as E2.
  fold n1 in H1, E1. fold n2 in H2, E2. clearbody n1 n2.
  unfold decode_quad.
  rewrite !char_sextet_char, !sextet_char_not_pad by (bits_to_arith; euclid).
  cbn [mbind option_bind].
  replace (N.lor (N.shiftl (N.shiftr n1 2) 2) _) with n1 by (bits_to_arith; euclid).
  rewrite E1. cbn [mbind option_bind].
  replace (N.lor (N.shiftl (N.land _ 15) 4) _) with n2 by (bits_to_arith; euclid).
  rewrite E2. reflexivity.
Qed.

(** One byte at the end: two characters and two paddings. *)
Lemma decode_quad_one (b1 : byte) :
  let n1 := Byte.to_N b1 in
  decode_quad
    (sextet_char (N.shiftr n1 2))
    (sextet_char (N.shiftl (N.land n1 3) 4))
    pad pad
  = Some [b1].
Proof.
  intros n1.
  pose proof (byte_lt_256 b1) as H1. pose proof (Byte.of_to_N b1) as E1.
  fold n1 in H1, E1. clearbody n1.
  unfold decode_quad.
  rewrite !char_sextet_char by (bits_to_arith; euclid).
  cbn [mbind option_bind].
  replace (N.lor (N.shiftl (N.shiftr n1 2) 2) _) with n1 by (bits_to_arith; euclid).
  rewrite E1. reflexivity.
Qed.

End Base64.

(** Induction on a list three elements at a time, as the encoder consumes it. *)
Lemma list_ind3 {A} (P : list A -> Prop) :
  P [] -> (forall a, P [a]) -> (forall a b, P [a; b]) ->
  (forall a b c l, P l -> P (a :: b :: c :: l)) ->
  forall l, P l.
Proof.
  intros H0 H1 H2 H3 l.
  enough (H : P l /\ (forall a, P (a :: l)) /\ (forall a b, P (a :: b :: l))) by apply H.
  induction l as [|x l (IH0 & IH1 & IH2)]; [auto|].
  repeat split; auto.
Qed.

(** C8: for every byte sequence, the base64 string the inline strategy
    writes decodes to that byte sequence again. *)
Theorem base64_round_trip (buffer : list byte) :
  from_base64 (toString_base64 buffer) = Some buffer.
Proof.
  induction buffer as [|b1|b1 b2|b1 b2 b3 rest IH] using list_ind3.
  - reflexivity.
  - cbn [toString_base64 from_base64]. rewrite decode_quad_one. reflexivity.
  - cbn [toString_base64 from_base64]. rewrite decode_quad_two. reflexivity.
  - cbn [toString_base64 from_base64]. rewrite decode_quad_three.
    cbn [mbind option_bind].
    rewrite sextet_char_not_pad.
    + rewrite IH. reflexivity.
    + pose proof (byte_lt_256 b3) as H3. rewrite (N.land_ones _ 6).
      apply N.mod_upper_bound. discriminate.
Qed.

(** The inline part of a document request carries the stored bytes: what the
    service receives decodes to the file. *)
Example inline_part_decodes :
  toString_base64 [x48; x69]%byte = "SGk="
  /\ from_base64 "SGk=" = Some [x48; x69]%byte
  /\ toString_base64 [x48; x69; x21; x0a]%byte = "SGkhCg=="
  /\ toString_base64 [x4d; x61; x6e]%byte = "TWFu".
Proof. repeat split; reflexivity. Qed.

(** * Further properties of the handlers *)

(** X1: on [/generate-text], a truthy prompt is handed to the model as it is,
    string or not, in one generation call with the fixed model; the answer is
    200 with the text when the call succeeds and 500 with the message when it
    raises, and the disk is as it was. *)
Theorem text_prompt_forwarded genAI req disk :
  truthy (body_prompt req) = true ->
  events GenerateText genAI req disk =
    [EvGenerate "gemini-2.0-flash" (RawContents (body_prompt req));
     match generate_reply genAI "gemini-2.0-flash" (RawContents (body_prompt req)) with
     | inr result => EvSend 200 [("output", of_option (text result))]
     | inl e => EvSend 500 [("error", JStr (message e))]
     end]
  /\ disk_after GenerateText genAI req disk = disk.
Proof.
  intros Htruthy. wp_run; rewrite ?Htruthy in *; tidy;
    match goal with
    | H : generate_reply _ _ _ = _ |- _ => rewrite H
    end; split; reflexivity.
Qed.

Lemma text_prompt_forwarded_witness :
  events GenerateText talkative {| body_prompt := JNum 7; file := None |} ∅ =
    [EvGenerate "gemini-2.0-flash" (RawContents (JNum 7));
     EvSend 200 [("output", JStr "Halo!")]]
  /\ disk_after GenerateText talkative {| body_prompt := JNum 7; file := None |} ∅ = ∅.
Proof.
  apply (text_prompt_forwarded talkative {| body_prompt := JNum 7; file := None |} ∅).
  reflexivity.
Defined.

(** X2: a handler answers with 400 exactly when the request has a parsed
    body and fails the check in front of the [try]: a falsy prompt
    ([undefined], [null], [false], [0], the empty string) on the text route,
    no file on a media route.  Neither the service nor the disk has a say in
    it, and a request without a parsed body is not answered with 400. *)
Theorem rejected_iff_input_invalid r genAI inc disk :
  (exists body, responses (events_of r genAI inc disk) = [(400%Z, body)])
  <-> exists req, inc = WithBody req /\ input_invalid r req = true.
Proof.
  destruct inc as [|req].
  - split; [intros [body Hbody]; destruct r; discriminate Hbody
           | intros (req & Hreq & _); discriminate Hreq].
  - rewrite events_of_with_body.
    enough (Hiff : (exists body, responses (events r genAI req disk) = [(400%Z, body)])
                   <-> input_invalid r req = true).
    { rewrite Hiff. split; [eauto | intros (req' & Hreq & Hinv); congruence]. }
    destruct req as [prompt fl]. unfold input_invalid. cbn [body_prompt file].
    destruct r; wp_run; cbn [responses];
      repeat match goal with
      | H : negb _ = _ |- _ => rewrite H
      end;
      (split; [intros [body Hbody]; tidy; try reflexivity; injection Hbody; discriminate
              | intros Hinv; tidy; eauto]).
Qed.

(** X3: a request is answered with 200 exactly when its handler made the
    generation call and the call succeeded. *)
Theorem success_iff_generation_succeeded r genAI req disk :
  (exists body, responses (events r genAI req disk) = [(200%Z, body)])
  <-> exists model contents result,
        In (EvGenerate model contents) (events r genAI req disk)
        /\ generate_reply genAI model contents = inr result.
Proof.
  destruct r; wp_run; cbn [responses In];
    (split;
     [ intros [body Hbody]; first [discriminate Hbody | injection Hbody; discriminate | eauto 10]
     | intros (model & contents & result' & Hin & Hreply); tidy; eauto ]).
Qed.

(** X4: on the image route, an upload that raises ends the request: the
    handler answers 500 with the upload's message, makes no generation call,
    and still runs the cleanup. *)
Theorem upload_failure_answered_500 genAI req f disk e :
  file req = Some f ->
  upload_reply genAI (path f) (disk !! path f) (mimetype f) = inl e ->
  events GenerateFromImage genAI req disk =
    [EvUpload (path f) (mimetype f); EvSend 500 [("error", JStr (message e))]]
    ++ (if bool_decide (is_Some (disk !! path f))
        then [EvExists (path f) true; EvUnlink (path f)]
        else [EvExists (path f) false]).
Proof.
  intros Hfile Hupload. destruct req as [prompt fl]. cbn in Hfile. subst fl.
  wp_run; tidy;
    repeat match goal with
    | H : disk !! _ = _ |- _ => rewrite H
    end; reflexivity.
Qed.

Lemma upload_failure_answered_500_witness :
  events GenerateFromImage upload_refused upload_only disk_with_scratch =
    [EvUpload "uploads/5d41402a" "application/pdf";
     EvSend 500 [("error", JStr "413 file too large")];
     EvExists "uploads/5d41402a" true;
     EvUnlink "uploads/5d41402a"].
Proof.
  apply (upload_failure_answered_500 upload_refused upload_only scratch disk_with_scratch
           {| message := "413 file too large" |}); reflexivity.
Defined.

(** X5: on the document and audio routes, a stored file that is not on the
    disk when the handler reads it ends the request: the handler answers 500
    with the message of the failed read, makes no remote call, finds nothing
    to remove, and leaves the disk as it was. *)
Theorem unreadable_file_answered_500 r genAI req f disk :
  r = GenerateFromDocument \/ r = GenerateFromAudio ->
  file req = Some f -> disk !! path f = None ->
  serve r genAI req disk =
    (Normal tt,
     {| fs := disk;
        statusCode := 500;
        trace := [EvReadFile (path f);
                  EvSend 500 [("error", JStr (message (ENOENT "open" (path f))))];
                  EvExists (path f) false] |}).
Proof.
  intros Hr Hfile Hgone. destruct req as [prompt fl]. cbn in Hfile. subst fl.
  unfold serve.
  match goal with
  | |- ?run = ?expected =>
      enough (H : run.1 = expected.1 /\ fs run.2 = fs expected.2
                  /\ statusCode run.2 = statusCode expected.2
                  /\ trace run.2 = trace expected.2)
        by (destruct run as [c [? ? ?]]; cbn in H;
            destruct H as (-> & -> & -> & ->); reflexivity)
  end.
  cbn [fst snd fs statusCode trace].
  destruct Hr as [-> | ->]; wp_run; tidy; repeat split; reflexivity.
Qed.

Lemma unreadable_file_answered_500_witness :
  serve GenerateFromAudio talkative upload_only ∅ =
    (Normal tt,
     {| fs := ∅;
        statusCode := 500;
        trace := [EvReadFile (path scratch);
                  EvSend 500 [("error", JStr (message (ENOENT "open" (path scratch))))];
                  EvExists (path scratch) false] |}).
Proof.
  apply (unreadable_file_answered_500 GenerateFromAudio talkative upload_only scratch ∅).
  - right. reflexivity.
  - reflexivity.
  - reflexivity.
Defined.

(** X6: a handler changes no file but the one stored for its request: every
    other path holds after the request what it held before. *)
Theorem other_files_untouched r genAI req disk p :
  (forall f, file req = Some f -> p <> path f) ->
  disk_after r genAI req disk !! p = disk !! p.
Proof.
  intros Hother. destruct req as [prompt [f|]]; cbn [file] in Hother.
  - specialize (Hother f eq_refl).
    destruct r; wp_run; try reflexivity; apply lookup_delete_ne; congruence.
  - destruct r; wp_run; reflexivity.
Qed.

Lemma other_files_untouched_witness :
  disk_after GenerateFromDocument talkative upload_only disk_with_neighbour
    !! "uploads/7c9e6679"
  = disk_with_neighbour !! "uploads/7c9e6679".
Proof.
  apply (other_files_untouched GenerateFromDocument talkative upload_only
           disk_with_neighbour "uploads/7c9e6679").
  intros f Hf. injection Hf as <-. discriminate.
Defined.

(** X7: a request makes at most one generation call, and at most one upload,
    the latter on the image route only: nothing is tried a second time. *)
Theorem no_retry r genAI req disk :
  length (List.filter is_generate_call (events r genAI req disk)) <= 1
  /\ length (List.filter is_upload_call (events r genAI req disk))
     <= (match r with GenerateFromImage => 1 | _ => 0 end).
Proof.
  destruct r; wp_run; cbn; lia.
Qed.

(** X8: the text route reads neither [req.file] nor the disk: it does the
    same with and without a file in the request and on any disk, never
    uploads, reads, checks or removes a file, and leaves the disk as it was. *)
Theorem text_route_ignores_file_and_disk genAI req disk :
  events GenerateText genAI req disk
    = events GenerateText genAI {| body_prompt := body_prompt req; file := None |} ∅
  /\ disk_after GenerateText genAI req disk = disk
  /\ Forall (fun ev => is_upload_call ev = false /\ is_cleanup_step ev = false
                       /\ forall p, ev <> EvReadFile p)
       (events GenerateText genAI req disk).
Proof.
  split.
  - unfold events, serve, handler, generate_text, try_catch, mbind, M_bind,
      models_generateContent. cbn [body_prompt].
    destruct (truthy (body_prompt req)); cbn; [|reflexivity].
    destruct (generate_reply _ _ _); reflexivity.
  - wp_run; (split; [reflexivity|]); repeat constructor; discriminate.
Qed.

(** X9: the document and the audio route differ in their default prompt and
    in the message for a missing file only: on a request that has a file and
    a prompt field they run alike, step by step. *)
Theorem document_and_audio_agree genAI req disk :
  input_invalid GenerateFromDocument req = false ->
  body_prompt req <> JUndefined ->
  serve GenerateFromDocument genAI req disk = serve GenerateFromAudio genAI req disk.
Proof.
  destruct req as [prompt [f|]]; cbn; [|discriminate].
  intros _ Hprompt. destruct prompt; [congruence | reflexivity ..].
Qed.

Lemma document_and_audio_agree_witness :
  serve GenerateFromDocument out_of_quota (upload_with "Ringkas.") disk_with_scratch
  = serve GenerateFromAudio out_of_quota (upload_with "Ringkas.") disk_with_scratch.
Proof.
  apply (document_and_audio_agree out_of_quota (upload_with "Ringkas.") disk_with_scratch).
  - reflexivity.
  - discriminate.
Defined.

(** Finds the response in an explicit list of events. *)
Ltac split_at_send :=
  lazymatch goal with
  | |- exists before status body after, ?l = _ /\ _ =>
      let rec go acc l :=
        lazymatch l with
        | EvSend ?st ?b :: ?rest => exists acc, st, b, rest
        | ?x :: ?rest => go (acc ++ [x]) rest
        end
      in go (@nil Event) l
  end.

(** X10: a handler that gets a parsed body sends its one response between
    the preparation and the cleanup: before it the handler only uploads,
    reads the stored file and calls the model; after it the handler only
    checks for and removes the stored file.  No remote call follows the
    response, and no file is removed before it.  A handler that gets no
    parsed body does none of these steps. *)
Theorem response_between_calls_and_cleanup r genAI inc disk :
  match inc with
  | NoBody => events_of r genAI inc disk = []
  | WithBody _ =>
      exists before status body after,
        events_of r genAI inc disk = before ++ EvSend status body :: after
        /\ Forall (fun ev => is_preparation ev = true) before
        /\ Forall (fun ev => is_cleanup_step ev = true) after
  end.
Proof.
  destruct inc as [|req]; [destruct r; reflexivity|].
  rewrite events_of_with_body.
  destruct r; wp_run; split_at_send;
    (split; [reflexivity | split; repeat constructor]).
Qed.

(** X11: a stored file serves one request.  After a document or audio
    request, the same request again (whatever the service would answer) fails
    at the read: 500 with the message of the failed read and no remote call. *)
Theorem scratch_file_serves_one_request r genAI genAI' req f disk :
  r = GenerateFromDocument \/ r = GenerateFromAudio ->
  file req = Some f ->
  events r genAI' req (disk_after r genAI req disk) =
    [EvReadFile (path f);
     EvSend 500 [("error", JStr (message (ENOENT "open" (path f))))];
     EvExists (path f) false].
Proof.
  intros Hr Hfile. destruct req as [prompt fl]. cbn in Hfile. subst fl.
  assert (Hgone : disk_after r genAI {| body_prompt := prompt; file := Some f |} disk
                    !! path f = None).
  { destruct Hr as [-> | ->]; wp_run; solve [apply lookup_delete_eq | assumption]. }
  revert Hgone. generalize (disk_after r genAI {| body_prompt := prompt; file := Some f |} disk).
  intros disk' Hgone.
  destruct Hr as [-> | ->]; wp_run; tidy; reflexivity.
Qed.

Lemma scratch_file_serves_one_request_witness :
  events GenerateFromDocument talkative upload_only
    (disk_after GenerateFromDocument out_of_quota upload_only disk_with_scratch) =
    [EvReadFile (path scratch);
     EvSend 500 [("error", JStr (message (ENOENT "open" (path scratch))))];
     EvExists (path scratch) false].
Proof.
  apply (scratch_file_serves_one_request GenerateFromDocument out_of_quota talkative
           upload_only scratch disk_with_scratch).
  - left. reflexivity.
  - reflexivity.
Defined.

(** X13: a request with a parsed body that fails the check in front of the
    [try] is answered with status 400 and the route's message, and that
    response is the whole run: no remote call, no access to the disk, no
    exception. *)
Theorem invalid_input_answered_400 r genAI req disk :
  input_invalid r req = true ->
  run r genAI (WithBody req) disk =
    (Normal tt,
     {| fs := disk;
        statusCode := 400;
        trace :=
          [EvSend 400
             [("error",
               JStr (match r with
                     | GenerateText => "Prompt diperlukan."
                     | _ => missing_file_message r
                     end))]] |}).
Proof.
  intros Hinvalid. rewrite run_with_body. unfold serve.
  destruct req as [prompt fl]. unfold input_invalid in Hinvalid.
  cbn [body_prompt file] in Hinvalid.
  destruct r; unfold handler, generate_text, generate_from_image,
    generate_from_document, generate_from_audio; cbn [body_prompt file].
  - rewrite Hinvalid. reflexivity.
  - destruct fl; [discriminate Hinvalid | reflexivity].
  - destruct fl; [discriminate Hinvalid | reflexivity].
  - destruct fl; [discriminate Hinvalid | reflexivity].
Qed.

Lemma invalid_input_answered_400_witness :
  run GenerateFromAudio talkative (WithBody (just_text "Apa isi rekaman ini?"))
    disk_with_scratch =
    (Normal tt,
     {| fs := disk_with_scratch;
        statusCode := 400;
        trace := [EvSend 400 [("error", JStr "File audio diperlukan.")]] |}).
Proof.
  apply (invalid_input_answered_400 GenerateFromAudio talkative
           (just_text "Apa isi rekaman ini?") disk_with_scratch).
  reflexivity.
Defined.

(** * The shape of the inline data *)

Lemma get_beyond (s : string) (n : nat) : String.length s <= n -> String.get n s = None.
Proof.
  revert n. induction s as [|c s IH]; intros n Hn; [destruct n; reflexivity|].
  destruct n as [|n]; cbn in *; [lia|]. apply IH. lia.
Qed.

Lemma sextet_char_is_base64 (n : N) : is_base64_char (sextet_char n) = true.
Proof.
  destruct (N.ltb_spec n 64) as [Hlt|Hge].
  - unfold is_base64_char. rewrite char_sextet_char by exact Hlt. reflexivity.
  - unfold sextet_char. rewrite get_beyond; [reflexivity|].
    change (String.length base64_alphabet) with 64. lia.
Qed.

(** X12: the inline data of a file of n bytes has 4 * ceil(n / 3) characters
    (the length the document and audio handlers log), every one of them a
    character of the base64 alphabet or the padding character, and it is
    empty only for the empty file. *)
Theorem base64_text_is_well_formed (buffer : list byte) :
  String.length (toString_base64 buffer) = 4 * ((length buffer + 2) / 3)
  /\ Forall (fun c => is_base64_char c = true)
       (list_ascii_of_string (toString_base64 buffer))
  /\ (toString_base64 buffer = "" <-> buffer = []).
Proof.
  split; [|split].
  - induction buffer as [|b1|b1 b2|b1 b2 b3 rest IH] using list_ind3;
      try reflexivity.
    cbn [toString_base64 String.length length]. rewrite IH.
    replace (S (S (S (length rest))) + 2) with (length rest + 2 + 1 * 3) by lia.
    rewrite Nat.div_add by lia. lia.
  - induction buffer as [|b1|b1 b2|b1 b2 b3 rest IH] using list_ind3;
      cbn [toString_base64 list_ascii_of_string];
      repeat first [exact IH | constructor | apply sextet_char_is_base64].
  - split; [|intros ->; reflexivity].
    destruct buffer as [|b1 [|b2 [|b3 rest]]]; [reflexivity | discriminate ..].
Qed.
